(** * ku-research: visibility-gated paper store and registration handshake

    A shallow embedding of [src/ku-research/main.go].  Go [int] values are
    only ever compared for equality (user and workspace identifiers), so
    they are modelled as [Z]; [len(papers)] is a [nat].  Go strings are
    byte strings and become [string].  The package-level variables
    [papers], [workspaceUsers] and [siteUsers] are gathered in one record
    that is threaded explicitly through the handlers. *)

From Stdlib Require Import ZArith List String Ascii Bool Lia Arith.
From Stdlib Require Import Decimal DecimalString DecimalNat.
Import ListNotations.

Local Open Scope string_scope.
Local Open Scope list_scope.
Local Open Scope Z_scope.

(** ** Data model *)

(** [type ResearchPaper struct]. *)
Record ResearchPaper : Type := mkResearchPaper {
  ID : string;
  Title : string;
  Authors : string;
  Abstract : string;
  CoverImage : string;
  PublishedYear : Z;
  Field : string;
  Classifications : list string;
  DOI : string;
  Journal : string;
  (* Visibility fields *)
  UserID : Z;
  IsPublic : bool;
  PublicOption : string;
  WorkspaceSiteID : Z
}.

(** [type WorkspaceUser struct]; the module keeps the source's field
    names apart from those of [ResearchPaper]. *)
Module WorkspaceUser.
Record t : Type := mk {
  WorkspaceID : Z;
  UserID : Z
}.

Definition eq_dec (a b : t) : {a = b} + {a <> b}.
Proof. decide equality; apply Z.eq_dec. Defined.
End WorkspaceUser.

(** The package-level [var ( papers; workspaceUsers; siteUsers )].  The
    mutex [mu] guards [papers]; its critical sections are the atomic steps
    of the handlers below. *)
Record Globals : Type := mkGlobals {
  papers : list ResearchPaper;
  workspaceUsers : list WorkspaceUser.t;
  siteUsers : list Z
}.

(** A decoded JSON payload in which [workspaceSiteID] is missing leaves the
    [int] field at Go's zero value. *)
Definition absentWorkspaceSiteID : Z := 0.

(** ** Visibility resolver *)

(** [for _, siteUserID := range siteUsers { if siteUserID == userID { return true } }; return false] *)
Fixpoint siteLoop (us : list Z) (userID : Z) : bool :=
  match us with
  | [] => false
  | siteUserID :: rest =>
      if siteUserID =? userID then true else siteLoop rest userID
  end.

(** [for _, workspaceUser := range workspaceUsers { if ... && ... { return true } }; return false] *)
Fixpoint workspaceLoop (ws : list WorkspaceUser.t) (workspaceSiteID userID : Z) : bool :=
  match ws with
  | [] => false
  | workspaceUser :: rest =>
      if (WorkspaceUser.WorkspaceID workspaceUser =? workspaceSiteID)
         && (WorkspaceUser.UserID workspaceUser =? userID)
      then true
      else workspaceLoop rest workspaceSiteID userID
  end.

(** [func hasAccess(paper ResearchPaper, userID int) bool] *)
Definition hasAccess (g : Globals) (paper : ResearchPaper) (userID : Z) : bool :=
  if UserID paper =? userID then true
  else if negb (IsPublic paper) then false
  else if String.eqb (PublicOption paper) "everyone" then true
  else if String.eqb (PublicOption paper) "site" then
    siteLoop (siteUsers g) userID
  else if String.eqb (PublicOption paper) "workspace" then
    workspaceLoop (workspaceUsers g) (WorkspaceSiteID paper) userID
  else false.

(** [func filterAccessiblePapers(allPapers []ResearchPaper, userID int) []ResearchPaper]:
    the accumulator starts as the nil slice and grows by [append]. *)
Definition filterAccessiblePapers (g : Globals) (allPapers : list ResearchPaper)
    (userID : Z) : list ResearchPaper :=
  fold_left
    (fun accessiblePapers paper =>
       if hasAccess g paper userID then accessiblePapers ++ [paper]
       else accessiblePapers)
    allPapers [].

(** The body of the [/get-research] handler once the request is decoded:
    under [mu], filter the current [papers]; the globals are not written. *)
Definition getResearch (g : Globals) (userID : Z) : list ResearchPaper * Globals :=
  (filterAccessiblePapers g (papers g) userID, g).

(** ** The resolver as the specification words it *)

Module Spec.

(** Membership of a subject in the site set. *)
Definition inSite (g : Globals) (S : Z) : bool :=
  if in_dec Z.eq_dec S (siteUsers g) then true else false.

(** Membership of the pair (workspace, subject) in the workspace relation. *)
Definition inWorkspace (g : Globals) (W S : Z) : bool :=
  if in_dec WorkspaceUser.eq_dec (WorkspaceUser.mk W S) (workspaceUsers g)
  then true else false.

(** Rules (1)-(6), first match wins. *)
Definition CanAccess (D : ResearchPaper) (S : Z) (M : Globals) : bool :=
  if Z.eq_dec (UserID D) S then true
  else if bool_dec (IsPublic D) false then false
  else if string_dec (PublicOption D) "everyone" then true
  else if string_dec (PublicOption D) "site" then inSite M S
  else if string_dec (PublicOption D) "workspace" then
    inWorkspace M (WorkspaceSiteID D) S
  else false.

(** The order-preserving filter of a snapshot by the visibility predicate. *)
Definition ListAccessible (M : Globals) (S : Z) : list ResearchPaper :=
  filter (fun D => CanAccess D S M) (papers M).

End Spec.

(** ** Sample data of the source *)

Definition getSampleWorkspaceUsers : list WorkspaceUser.t :=
  [ WorkspaceUser.mk 1 2; WorkspaceUser.mk 3 2; WorkspaceUser.mk 1 3;
    WorkspaceUser.mk 3 3; WorkspaceUser.mk 9 3; WorkspaceUser.mk 1 4;
    WorkspaceUser.mk 3 4; WorkspaceUser.mk 8 4 ].

Definition getSampleSiteUsers : list Z := [1; 2; 3; 4].

Definition getSamplePapers : list ResearchPaper :=
  [ {| ID := "1";
       Title := "Quantum Computing: Recent Advances and Future Directions";
       Authors := "Dr. Richard Feynman, Dr. Lisa Chen";
       Abstract := "This paper reviews recent developments in quantum computing, focusing on quantum supremacy experiments and potential applications in cryptography, optimization, and simulation of quantum systems.";
       CoverImage := "https://images.unsplash.com/photo-1635070041078-e363dbe005cb?ixlib=rb-4.0.3&ixid=M3wxMjA3fDB8MHxwaG90by1wYWdlfHx8fGVufDB8fHx8fA%3D%3D&auto=format&fit=crop&w=2070&q=80";
       PublishedYear := 2023;
       Field := "Computer Science";
       Classifications := ["Quantum Computing"; "Theoretical Physics"; "Cryptography"];
       DOI := "10.1038/s41586-019-1666-5";
       Journal := "Nature Quantum Information";
       UserID := 1;
       IsPublic := true;
       PublicOption := "everyone";
       WorkspaceSiteID := 0 |} ].

(** The globals as [main] initialises them. *)
Definition initialGlobals : Globals :=
  {| papers := getSamplePapers;
     workspaceUsers := getSampleWorkspaceUsers;
     siteUsers := getSampleSiteUsers |}.

(** ** Document store: the [/add-paper] handler *)

(** [fmt.Sprintf("%d", n)] for a non-negative [n]. *)
Definition Sprintf_d (n : nat) : string :=
  NilEmpty.string_of_uint (Nat.to_uint n).

(** [func generateID() string]: under [mu], [len(papers)+1] in decimal. *)
Definition generateID (g : Globals) : string :=
  Sprintf_d (List.length (papers g) + 1).

(** What the handler sends back: [400 {"error": ...}] or
    [201 {"message": ..., "paper": newPaper}]. *)
Inductive Response : Type :=
| StatusBadRequest (error : string)
| StatusCreated (message : string) (paper : ResearchPaper).

(** [newPaper.ID = id] *)
Definition withID (paper : ResearchPaper) (id : string) : ResearchPaper :=
  {| ID := id;
     Title := Title paper;
     Authors := Authors paper;
     Abstract := Abstract paper;
     CoverImage := CoverImage paper;
     PublishedYear := PublishedYear paper;
     Field := Field paper;
     Classifications := Classifications paper;
     DOI := DOI paper;
     Journal := Journal paper;
     UserID := UserID paper;
     IsPublic := IsPublic paper;
     PublicOption := PublicOption paper;
     WorkspaceSiteID := WorkspaceSiteID paper |}.

(** [newPaper.Title == "" || newPaper.Authors == "" || newPaper.Abstract == ""] *)
Definition missingRequired (newPaper : ResearchPaper) : bool :=
  String.eqb (Title newPaper) "" || String.eqb (Authors newPaper) ""
  || String.eqb (Abstract newPaper) "".

(** [papers = append(papers, newPaper)] *)
Definition appendPaper (g : Globals) (newPaper : ResearchPaper) : Globals :=
  {| papers := papers g ++ [newPaper];
     workspaceUsers := workspaceUsers g;
     siteUsers := siteUsers g |}.

(** The [/add-paper] handler on a decoded payload, run without any other
    request in between its two critical sections. *)
Definition addPaper (g : Globals) (newPaper : ResearchPaper) : Response * Globals :=
  if missingRequired newPaper then
    (StatusBadRequest "Missing required fields", g)
  else
    let newPaper :=
      if String.eqb (ID newPaper) "" then withID newPaper (generateID g)
      else newPaper in
    (StatusCreated "Paper added successfully" newPaper, appendPaper g newPaper).

(** The store states the running server can be in: what [main] sets up,
    followed by any number of [/add-paper] requests. *)
Inductive reachable : Globals -> Prop :=
| reachable_init : reachable initialGlobals
| reachable_add (g : Globals) (newPaper : ResearchPaper) :
    reachable g -> reachable (snd (addPaper g newPaper)).

(** The ids held by the store. *)
Definition storedIDs (g : Globals) : list string := map ID (papers g).

(** ** Concurrent [/add-paper] requests

    Every access to [papers] happens with [mu] held, so an execution is an
    interleaving of the handlers' critical sections.  A handler holds [mu]
    twice: inside [generateID] and around the [append]. *)
Module Concurrent.

(** Where a handler stands. *)
Inductive Handler : Type :=
| Decoded (newPaper : ResearchPaper)
    (* body parsed; validation and the test on [newPaper.ID] are next *)
| CallGenerateID (newPaper : ResearchPaper)
    (* about to take [mu] in [generateID] *)
| AppendPaper (newPaper : ResearchPaper)
    (* about to take [mu] for [papers = append(papers, newPaper)] *)
| Responded (r : Response).

(** One move of one handler: its local code up to and including the next
    critical section. *)
Definition step (g : Globals) (h : Handler) : Globals * Handler :=
  match h with
  | Decoded newPaper =>
      if missingRequired newPaper then
        (g, Responded (StatusBadRequest "Missing required fields"))
      else if String.eqb (ID newPaper) "" then (g, CallGenerateID newPaper)
      else (g, AppendPaper newPaper)
  | CallGenerateID newPaper =>
      (g, AppendPaper (withID newPaper (generateID g)))
  | AppendPaper newPaper =>
      (appendPaper g newPaper,
       Responded (StatusCreated "Paper added successfully" newPaper))
  | Responded r => (g, Responded r)
  end.

(** The scheduler lets handler number [i] move. *)
Fixpoint stepAt (i : nat) (g : Globals) (hs : list Handler) : Globals * list Handler :=
  match hs with
  | [] => (g, [])
  | h :: rest =>
      match i with
      | O => let (g', h') := step g h in (g', h' :: rest)
      | S j => let (g', rest') := stepAt j g rest in (g', h :: rest')
      end
  end.

(** An interleaving is the list of the handlers' turns. *)
Fixpoint run (schedule : list nat) (g : Globals) (hs : list Handler) : Globals * list Handler :=
  match schedule with
  | [] => (g, hs)
  | i :: later => let (g', hs') := stepAt i g hs in run later g' hs'
  end.

Definition responded (h : Handler) : bool :=
  match h with Responded _ => true | _ => false end.

(** The id a handler reported to its caller, once it has answered 201. *)
Definition assignedID (h : Handler) : option string :=
  match h with
  | Responded (StatusCreated _ paper) => Some (ID paper)
  | _ => None
  end.

Fixpoint assignedIDs (hs : list Handler) : list string :=
  match hs with
  | [] => []
  | h :: rest =>
      match assignedID h with
      | Some id => id :: assignedIDs rest
      | None => assignedIDs rest
      end
  end.

(** How many more papers a handler is going to append. *)
Definition toAppend (h : Handler) : nat :=
  match h with
  | Decoded newPaper => if missingRequired newPaper then 0%nat else 1%nat
  | CallGenerateID _ | AppendPaper _ => 1%nat
  | Responded _ => 0%nat
  end.

Definition toAppendAll (hs : list Handler) : nat :=
  fold_right (fun h n => (toAppend h + n)%nat) 0%nat hs.

End Concurrent.

(** ** Registration handshake *)

(** What the loop of [main] does that the outside can see. *)
Inductive Event : Type :=
| Register (attempt : nat)   (* [sdk.Register(...)], attempt [i+1] *)
| Sleep (seconds : Z).       (* [time.Sleep(seconds * time.Second)] *)

(** How the loop is left: by [break], or with its range used up. *)
Inductive Outcome : Type := Registered | GaveUp.

Definition maxRetries : nat := 5.

(** The loop [for i := range maxRetries { ... }] from iteration [i] on, with
    [remaining] iterations to go.  [sdk.Register] is outside the sources:
    [directory k] says whether the call number [k] (from 0) returns a nil
    error. *)
Fixpoint registerLoop (directory : nat -> bool) (remaining i : nat) : list Event * Outcome :=
  match remaining with
  | O => ([], GaveUp)
  | S remaining' =>
      if directory i then ([Register (i + 1)], Registered)
      else
        let (later, outcome) := registerLoop directory remaining' (i + 1) in
        if (i <? maxRetries - 1)%nat then
          (Register (i + 1) :: Sleep 2 :: later, outcome)
        else
          (Register (i + 1) :: later, outcome)
  end.

Definition registerWithSuperApp (directory : nat -> bool) : list Event * Outcome :=
  registerLoop directory maxRetries 0.

Definition isRegister (e : Event) : bool :=
  match e with Register _ => true | Sleep _ => false end.

(** Number of calls to [sdk.Register] in a trace. *)
Definition attempts (trace : list Event) : nat :=
  List.length (filter isRegister trace).

Module HandshakeSpec.

(** Index (from 1) of the first successful response among the first
    [bound] ones, capped at [bound]. *)
Fixpoint firstSuccessCapped (directory : nat -> bool) (bound i : nat) : nat :=
  match bound with
  | O => O
  | S bound' =>
      if directory i then 1%nat
      else match bound' with
           | O => 1%nat
           | S _ => S (firstSuccessCapped directory bound' (i + 1))
           end
  end.

(** Attempts [from+1 .. from+n], each two consecutive ones separated by a
    wait of 2. *)
Fixpoint spaced (n from : nat) : list Event :=
  match n with
  | O => []
  | S O => [Register (from + 1)]
  | S n' => Register (from + 1) :: Sleep 2 :: spaced n' (from + 1)
  end.

End HandshakeSpec.

(** ** Concrete inputs used below *)

Definition blankPaper : ResearchPaper :=
  {| ID := ""; Title := ""; Authors := ""; Abstract := ""; CoverImage := "";
     PublishedYear := 0; Field := ""; Classifications := []; DOI := "";
     Journal := ""; UserID := 0; IsPublic := false; PublicOption := "";
     WorkspaceSiteID := 0 |}.

(** A valid payload without an id, owned by [owner]. *)
Definition draft (title : string) (owner : Z) : ResearchPaper :=
  {| ID := ""; Title := title; Authors := "A. Author"; Abstract := "Abstract.";
     CoverImage := ""; PublishedYear := 2024; Field := ""; Classifications := [];
     DOI := ""; Journal := ""; UserID := owner; IsPublic := false;
     PublicOption := ""; WorkspaceSiteID := 0 |}.

(** A paper shared with a workspace, the qualifier left out of the payload. *)
Definition workspacePaperNoQualifier : ResearchPaper :=
  {| ID := "7"; Title := "T"; Authors := "A"; Abstract := "B"; CoverImage := "";
     PublishedYear := 2024; Field := ""; Classifications := []; DOI := "";
     Journal := ""; UserID := 1; IsPublic := true; PublicOption := "workspace";
     WorkspaceSiteID := absentWorkspaceSiteID |}.

(** A membership index in which subject 5 belongs to workspace 0. *)
Definition globalsWithWorkspaceZero : Globals :=
  {| papers := [workspacePaperNoQualifier];
     workspaceUsers := [WorkspaceUser.mk 0 5];
     siteUsers := [] |}.

(** A store numbered the way [generateID] counts: the paper at position
    [i] (from 0) has the id [i+1]. *)
Definition numberedByPosition (g : Globals) : Prop :=
  forall (i : nat) (paper : ResearchPaper),
    nth_error (papers g) i = Some paper -> ID paper = Sprintf_d (i + 1).

(** A client sends a valid paper with an id of its own choice, "3". *)
Definition paperWithOwnID : ResearchPaper := withID (draft "Second" 2) "3".

(** The seeded store after that paper has been added. *)
Definition globalsAfterOwnID : Globals := snd (addPaper initialGlobals paperWithOwnID).

(** Two requests without id arrive together. *)
Definition twoRequests : list Concurrent.Handler :=
  [Concurrent.Decoded (draft "A" 1); Concurrent.Decoded (draft "B" 2)].

(** Both handlers validate, both call [generateID], then both append. *)
Definition racingSchedule : list nat := [0; 1; 0; 1; 0; 1]%nat.

(** ** Requests in sequence, and time spent waiting *)

(** [/add-paper] requests served one after the other, each handler
    finishing before the next one starts. *)
Definition serveAddPaper (g : Globals) (requests : list ResearchPaper) : Globals :=
  fold_left (fun g newPaper => snd (addPaper g newPaper)) requests g.

(** Seconds spent in [time.Sleep] along a trace of the handshake. *)
Definition sleptSeconds (trace : list Event) : Z :=
  fold_right
    (fun e total => match e with Sleep seconds => seconds + total | Register _ => total end)
    0 trace.

(** What a user sees who is in no membership list at all: the papers they
    own and the shared papers whose scope is "everyone". *)
Definition ownOrEveryone (userID : Z) (paper : ResearchPaper) : bool :=
  (UserID paper =? userID)
  || (IsPublic paper && String.eqb (PublicOption paper) "everyone").

(** How many moves a handler still needs before it has answered: the
    validation with the test on the id, the call of [generateID], the
    [append]. *)
Definition movesLeft (h : Concurrent.Handler) : nat :=
  match h with
  | Concurrent.Decoded newPaper =>
      if missingRequired newPaper then 1%nat
      else if String.eqb (ID newPaper) "" then 3%nat else 2%nat
  | Concurrent.CallGenerateID _ => 2%nat
  | Concurrent.AppendPaper _ => 1%nat
  | Concurrent.Responded _ => 0%nat
  end.

(** ** Lemmas on the resolver *)

Lemma siteLoop_In (us : list Z) (userID : Z) :
  siteLoop us userID = true <-> In userID us.
Proof.
  induction us as [|u us IH]; simpl.
  - split; [discriminate | tauto].
  - destruct (Z.eqb_spec u userID) as [->|Hne].
    + split; auto.
    + rewrite IH. split; [tauto | intros [E|H]; [contradiction | exact H]].
Qed.

Lemma workspaceLoop_In (ws : list WorkspaceUser.t) (W S : Z) :
  workspaceLoop ws W S = true <-> In (WorkspaceUser.mk W S) ws.
Proof.
  induction ws as [|[w u] ws IH]; simpl.
  - split; [discriminate | tauto].
  - destruct (Z.eqb_spec w W) as [->|Hw]; simpl.
    + destruct (Z.eqb_spec u S) as [->|Hu].
      * split; auto.
      * rewrite IH. split; [tauto | intros [E|H]; [congruence | exact H]].
    + rewrite IH. split; [tauto | intros [E|H]; [congruence | exact H]].
Qed.

Lemma siteLoop_inSite (g : Globals) (S : Z) :
  siteLoop (siteUsers g) S = Spec.inSite g S.
Proof.
  unfold Spec.inSite.
  destruct (in_dec Z.eq_dec S (siteUsers g)) as [H|H].
  - now apply siteLoop_In.
  - destruct (siteLoop (siteUsers g) S) eqn:E; [|reflexivity].
    apply siteLoop_In in E. contradiction.
Qed.

Lemma workspaceLoop_inWorkspace (g : Globals) (W S : Z) :
  workspaceLoop (workspaceUsers g) W S = Spec.inWorkspace g W S.
Proof.
  unfold Spec.inWorkspace.
  destruct (in_dec WorkspaceUser.eq_dec _ (workspaceUsers g)) as [H|H].
  - now apply workspaceLoop_In.
  - destruct (workspaceLoop (workspaceUsers g) W S) eqn:E; [|reflexivity].
    apply workspaceLoop_In in E. contradiction.
Qed.

Lemma hasAccess_CanAccess (g : Globals) (paper : ResearchPaper) (userID : Z) :
  hasAccess g paper userID = Spec.CanAccess paper userID g.
Proof.
  unfold hasAccess, Spec.CanAccess.
  destruct (Z.eqb_spec (UserID paper) userID) as [Ho|Ho];
    destruct (Z.eq_dec (UserID paper) userID) as [Ho'|Ho']; try contradiction;
    [reflexivity|].
  destruct (IsPublic paper); simpl; [|reflexivity].
  destruct (String.eqb_spec (PublicOption paper) "everyone") as [He|He];
    destruct (string_dec (PublicOption paper) "everyone"); try contradiction;
    [reflexivity|].
  destruct (String.eqb_spec (PublicOption paper) "site") as [Hs|Hs];
    destruct (string_dec (PublicOption paper) "site"); try contradiction;
    [apply siteLoop_inSite|].
  destruct (String.eqb_spec (PublicOption paper) "workspace") as [Hw|Hw];
    destruct (string_dec (PublicOption paper) "workspace"); try contradiction;
    [apply workspaceLoop_inWorkspace | reflexivity].
Qed.

Lemma hasAccess_owner (g : Globals) (paper : ResearchPaper) :
  hasAccess g paper (UserID paper) = true.
Proof. unfold hasAccess. now rewrite Z.eqb_refl. Qed.

Lemma hasAccess_other_scope (g : Globals) (paper : ResearchPaper) (userID : Z) :
  UserID paper <> userID ->
  PublicOption paper <> "everyone" ->
  PublicOption paper <> "site" ->
  PublicOption paper <> "workspace" ->
  hasAccess g paper userID = false.
Proof.
  intros Ho He Hs Hw. unfold hasAccess.
  apply Z.eqb_neq in Ho. rewrite Ho.
  apply String.eqb_neq in He, Hs, Hw. rewrite He, Hs, Hw.
  now destruct (IsPublic paper).
Qed.

(** ** The filtered query *)

Lemma filter_loop_acc (g : Globals) (userID : Z) (allPapers acc : list ResearchPaper) :
  fold_left
    (fun accessiblePapers paper =>
       if hasAccess g paper userID then accessiblePapers ++ [paper]
       else accessiblePapers)
    allPapers acc
  = acc ++ filter (fun paper => hasAccess g paper userID) allPapers.
Proof.
  revert acc. induction allPapers as [|paper rest IH]; intros acc; simpl.
  - now rewrite app_nil_r.
  - rewrite IH. destruct (hasAccess g paper userID); [|reflexivity].
    now rewrite <- app_assoc.
Qed.

Lemma filterAccessiblePapers_filter (g : Globals) (allPapers : list ResearchPaper) (userID : Z) :
  filterAccessiblePapers g allPapers userID
  = filter (fun paper => hasAccess g paper userID) allPapers.
Proof. unfold filterAccessiblePapers. now rewrite filter_loop_acc. Qed.

(** C1. [hasAccess] is the six-rule cascade of the specification, first
    match wins; in particular the owner is always allowed, and a paper whose
    scope is none of "everyone", "site", "workspace" is denied to everybody
    but its owner, shared or not. *)
Theorem C1_hasAccess_is_rule_cascade :
  forall (g : Globals) (paper : ResearchPaper) (userID : Z),
    hasAccess g paper userID = Spec.CanAccess paper userID g
    /\ hasAccess g paper (UserID paper) = true
    /\ (UserID paper <> userID ->
        IsPublic paper = true ->
        PublicOption paper <> "everyone" ->
        PublicOption paper <> "site" ->
        PublicOption paper <> "workspace" ->
        hasAccess g paper userID = false).
Proof.
  intros g paper userID. split; [apply hasAccess_CanAccess|].
  split; [apply hasAccess_owner|].
  intros Ho _ He Hs Hw. now apply hasAccess_other_scope.
Qed.

(** C1 witness: a shared paper without scope, seen by its owner and by
    somebody else. *)
Lemma C1_witness :
  hasAccess initialGlobals (withID (draft "Notes" 1) "5") 1 = true
  /\ hasAccess initialGlobals
       {| ID := "5"; Title := "Notes"; Authors := "A"; Abstract := "B";
          CoverImage := ""; PublishedYear := 2024; Field := "";
          Classifications := []; DOI := ""; Journal := ""; UserID := 1;
          IsPublic := true; PublicOption := ""; WorkspaceSiteID := 0 |} 2
     = false.
Proof.
  split.
  - apply (C1_hasAccess_is_rule_cascade initialGlobals (withID (draft "Notes" 1) "5") 1).
  - apply C1_hasAccess_is_rule_cascade; simpl; (lia || reflexivity || discriminate).
Defined.

(** C2. The list returned for a subject is the order-preserving filter of
    the stored sequence by the visibility predicate: exactly the stored
    papers the subject may see, in the order of the store. *)
Theorem C2_getResearch_is_filter :
  forall (g : Globals) (userID : Z),
    fst (getResearch g userID) = Spec.ListAccessible g userID
    /\ forall allPapers : list ResearchPaper,
         filterAccessiblePapers g allPapers userID
         = filter (fun D => Spec.CanAccess D userID g) allPapers.
Proof.
  intros g userID.
  assert (H : forall allPapers,
             filterAccessiblePapers g allPapers userID
             = filter (fun D => Spec.CanAccess D userID g) allPapers).
  { intros allPapers. rewrite filterAccessiblePapers_filter.
    apply filter_ext. intros D. apply hasAccess_CanAccess. }
  split; [|exact H]. unfold getResearch, Spec.ListAccessible. simpl. apply H.
Qed.

(** C6, as the code has it.  For a shared paper of scope "workspace" and a
    subject other than the owner, access is denied exactly when the pair
    (qualifier, subject) is not a workspace membership.  A qualifier left
    out of the payload is the integer 0, so such a paper is denied to all
    non-owners as long as no membership names workspace 0. *)
Theorem C6_workspace_scope_denied_iff_no_pair :
  forall (g : Globals) (paper : ResearchPaper) (userID : Z),
    IsPublic paper = true ->
    PublicOption paper = "workspace" ->
    userID <> UserID paper ->
    (hasAccess g paper userID = false <->
     ~ In (WorkspaceUser.mk (WorkspaceSiteID paper) userID) (workspaceUsers g))
    /\ (WorkspaceSiteID paper = absentWorkspaceSiteID ->
        (forall wu, In wu (workspaceUsers g) ->
                    WorkspaceUser.WorkspaceID wu <> 0) ->
        hasAccess g paper userID = false).
Proof.
  intros g paper userID Hpub Hscope Hne.
  assert (E : hasAccess g paper userID
              = workspaceLoop (workspaceUsers g) (WorkspaceSiteID paper) userID).
  { unfold hasAccess. rewrite Hpub, Hscope. simpl.
    destruct (Z.eqb_spec (UserID paper) userID); [congruence | reflexivity]. }
  assert (I : hasAccess g paper userID = false <->
              ~ In (WorkspaceUser.mk (WorkspaceSiteID paper) userID) (workspaceUsers g)).
  { rewrite E, <- workspaceLoop_In.
    destruct (workspaceLoop _ _ _); split; congruence. }
  split; [exact I|].
  intros Habs Hnz. apply I. intros Hin.
  apply (Hnz _ Hin). simpl. exact Habs.
Qed.

(** C6 witness: with the memberships the server is started with, a
    "workspace" paper without qualifier is denied to subject 2. *)
Lemma C6_witness :
  (hasAccess initialGlobals workspacePaperNoQualifier 2 = false <->
   ~ In (WorkspaceUser.mk 0 2) getSampleWorkspaceUsers)
  /\ hasAccess initialGlobals workspacePaperNoQualifier 2 = false.
Proof.
  destruct (C6_workspace_scope_denied_iff_no_pair
              initialGlobals workspacePaperNoQualifier 2) as [I D].
  - reflexivity.
  - reflexivity.
  - simpl. lia.
  - split; [exact I|]. apply D; [reflexivity|].
    simpl. intros wu H.
    repeat (destruct H as [<-|H]; [simpl; lia|]). destruct H.
Defined.

(** C6 as stated fails: the qualifier is absent, the subject is not the
    owner, and yet access is granted, because subject 5 is a member of
    workspace 0. *)
Lemma C6_counterexample :
  IsPublic workspacePaperNoQualifier = true
  /\ PublicOption workspacePaperNoQualifier = "workspace"
  /\ WorkspaceSiteID workspacePaperNoQualifier = absentWorkspaceSiteID
  /\ 5 <> UserID workspacePaperNoQualifier
  /\ hasAccess globalsWithWorkspaceZero workspacePaperNoQualifier 5 = true.
Proof. repeat split. simpl. lia. Qed.

(** C8. Two papers with the same owner, sharing flag, scope and qualifier
    get the same decision, whatever their other fields are. *)
Theorem C8_descriptive_fields_irrelevant :
  forall (g : Globals) (paper paper' : ResearchPaper) (userID : Z),
    UserID paper = UserID paper' ->
    IsPublic paper = IsPublic paper' ->
    PublicOption paper = PublicOption paper' ->
    WorkspaceSiteID paper = WorkspaceSiteID paper' ->
    hasAccess g paper userID = hasAccess g paper' userID.
Proof.
  intros g paper paper' userID Ho Hs Hp Hw.
  unfold hasAccess. now rewrite Ho, Hs, Hp, Hw.
Qed.

(** C8 witness: the seeded paper and a copy of it with other descriptive
    fields. *)
Lemma C8_witness :
  hasAccess initialGlobals
    {| ID := "1"; Title := "Quantum"; Authors := "F"; Abstract := "Q";
       CoverImage := "c"; PublishedYear := 2023; Field := "CS";
       Classifications := ["Quantum Computing"]; DOI := "d"; Journal := "N";
       UserID := 1; IsPublic := true; PublicOption := "site";
       WorkspaceSiteID := 3 |} 9
  = hasAccess initialGlobals
    {| ID := "2"; Title := "Marine"; Authors := "G"; Abstract := "M";
       CoverImage := ""; PublishedYear := 1999; Field := "Biology";
       Classifications := []; DOI := ""; Journal := "";
       UserID := 1; IsPublic := true; PublicOption := "site";
       WorkspaceSiteID := 3 |} 9.
Proof. apply C8_descriptive_fields_irrelevant; reflexivity. Defined.

(** C9. Asking twice for the papers of a subject, with no insert in
    between, gives the same ordered list twice, and the store is as it
    was. *)
Theorem C9_getResearch_repeatable :
  forall (g : Globals) (userID : Z),
    let (first, g1) := getResearch g userID in
    let (second, g2) := getResearch g1 userID in
    first = second /\ g1 = g /\ g2 = g.
Proof. intros g userID. unfold getResearch. auto. Qed.

(** ** The store *)

Lemma missingRequired_true (newPaper : ResearchPaper) :
  Title newPaper = "" \/ Authors newPaper = "" \/ Abstract newPaper = "" ->
  missingRequired newPaper = true.
Proof.
  unfold missingRequired. intros [H|[H|H]]; rewrite H; simpl;
    rewrite ?orb_true_r; reflexivity.
Qed.

Lemma missingRequired_false (newPaper : ResearchPaper) :
  Title newPaper <> "" -> Authors newPaper <> "" -> Abstract newPaper <> "" ->
  missingRequired newPaper = false.
Proof.
  unfold missingRequired. intros Ht Ha Hb.
  apply String.eqb_neq in Ht, Ha, Hb. now rewrite Ht, Ha, Hb.
Qed.

(** C5. A payload whose title, authors or abstract is empty is answered
    with the validation error; the globals are returned untouched, the
    response carries no paper and hence no id, and the handler goes
    straight from the decoded payload to its answer, whatever the
    visibility fields and the membership index are. *)
Theorem C5_missing_fields_rejected :
  forall (g : Globals) (newPaper : ResearchPaper),
    Title newPaper = "" \/ Authors newPaper = "" \/ Abstract newPaper = "" ->
    addPaper g newPaper = (StatusBadRequest "Missing required fields", g)
    /\ Concurrent.step g (Concurrent.Decoded newPaper)
       = (g, Concurrent.Responded (StatusBadRequest "Missing required fields")).
Proof.
  intros g newPaper H. apply missingRequired_true in H.
  unfold addPaper, Concurrent.step. now rewrite H.
Qed.

(** C5 witness: the payload without authors and abstract. *)
Lemma C5_witness :
  addPaper initialGlobals (withID blankPaper "9")
  = (StatusBadRequest "Missing required fields", initialGlobals)
  /\ Concurrent.step initialGlobals (Concurrent.Decoded (withID blankPaper "9"))
     = (initialGlobals,
        Concurrent.Responded (StatusBadRequest "Missing required fields")).
Proof.
  apply (C5_missing_fields_rejected initialGlobals (withID blankPaper "9")).
  left. reflexivity.
Defined.

(** C10. A successful insert returns the payload, with the generated id
    filled in when it had none, and the new store is the old one with that
    one paper added at the end: the papers stored before are the same at
    the same positions, and the memberships are not touched. *)
Theorem C10_insert_appends_one :
  forall (g : Globals) (newPaper : ResearchPaper),
    Title newPaper <> "" -> Authors newPaper <> "" -> Abstract newPaper <> "" ->
    exists stored : ResearchPaper,
      fst (addPaper g newPaper) = StatusCreated "Paper added successfully" stored
      /\ stored = (if String.eqb (ID newPaper) "" then withID newPaper (generateID g)
                   else newPaper)
      /\ papers (snd (addPaper g newPaper)) = papers g ++ [stored]
      /\ (forall i : nat, (i < List.length (papers g))%nat ->
            nth_error (papers (snd (addPaper g newPaper))) i = nth_error (papers g) i)
      /\ nth_error (papers (snd (addPaper g newPaper))) (List.length (papers g))
         = Some stored
      /\ List.length (papers (snd (addPaper g newPaper))) = S (List.length (papers g))
      /\ workspaceUsers (snd (addPaper g newPaper)) = workspaceUsers g
      /\ siteUsers (snd (addPaper g newPaper)) = siteUsers g.
Proof.
  intros g newPaper Ht Ha Hb.
  pose proof (missingRequired_false newPaper Ht Ha Hb) as Hv.
  unfold addPaper. rewrite Hv.
  set (stored := if String.eqb (ID newPaper) "" then withID newPaper (generateID g)
                 else newPaper).
  exists stored. simpl. repeat split.
  - intros i Hi. now apply nth_error_app1.
  - rewrite nth_error_app2 by lia. now rewrite Nat.sub_diag.
  - rewrite length_app. simpl. lia.
Qed.

(** C10 witness: a draft added to the seeded store. *)
Lemma C10_witness :
  exists stored : ResearchPaper,
    fst (addPaper initialGlobals (draft "Tides" 2))
    = StatusCreated "Paper added successfully" stored
    /\ stored = withID (draft "Tides" 2) "2"
    /\ papers (snd (addPaper initialGlobals (draft "Tides" 2)))
       = getSamplePapers ++ [stored].
Proof.
  destruct (C10_insert_appends_one initialGlobals (draft "Tides" 2))
    as (stored & Hr & Hs & Hp & _); try discriminate.
  exists stored. repeat split; assumption.
Defined.

(** ** Generated ids *)

Lemma Sprintf_d_inj (n m : nat) : Sprintf_d n = Sprintf_d m -> n = m.
Proof.
  unfold Sprintf_d. intros H.
  apply DecimalNat.Unsigned.to_uint_inj.
  apply (f_equal NilEmpty.uint_of_string) in H.
  rewrite !NilEmpty.usu in H. congruence.
Qed.

(** In a store numbered by position the generated id is new. *)
Lemma generateID_fresh_when_numbered (g : Globals) :
  numberedByPosition g -> ~ In (generateID g) (storedIDs g).
Proof.
  intros Hn Hin. unfold storedIDs in Hin. apply in_map_iff in Hin.
  destruct Hin as (paper & Hid & Hp).
  apply In_nth_error in Hp. destruct Hp as [i Hi].
  assert (Hlt : (i < List.length (papers g))%nat).
  { apply nth_error_Some. congruence. }
  rewrite (Hn i paper Hi) in Hid. unfold generateID in Hid.
  apply Sprintf_d_inj in Hid. lia.
Qed.

(** Adding papers without id keeps a store numbered by position. *)
Lemma numbered_addPaper_without_id (g : Globals) (newPaper : ResearchPaper) :
  numberedByPosition g -> ID newPaper = "" ->
  numberedByPosition (snd (addPaper g newPaper)).
Proof.
  intros Hn Hid. unfold addPaper.
  destruct (missingRequired newPaper); simpl; [exact Hn|].
  rewrite Hid. simpl. intros i paper Hi. simpl in Hi.
  destruct (Nat.lt_ge_cases i (List.length (papers g))) as [Hlt|Hge].
  - rewrite nth_error_app1 in Hi by exact Hlt. now apply Hn.
  - rewrite nth_error_app2 in Hi by exact Hge.
    destruct (i - List.length (papers g))%nat as [|k] eqn:E; simpl in Hi.
    + injection Hi as <-. simpl. unfold generateID.
      replace i with (List.length (papers g)) by lia. reflexivity.
    + now destruct k.
Qed.

Lemma initialGlobals_numbered : numberedByPosition initialGlobals.
Proof.
  intros i paper Hi. destruct i as [|i]; simpl in Hi.
  - injection Hi as <-. reflexivity.
  - now destruct i.
Qed.

(** C3 fails on the code.  The store [globalsAfterOwnID] is reached from the
    seeded store by one valid insert that brings its own id "3".  The next
    valid insert without id is given [len(papers)+1], which is "3" again:
    the assigned id is the id of a paper already stored. *)
Theorem C3_generated_id_collides :
  reachable globalsAfterOwnID
  /\ storedIDs globalsAfterOwnID = ["1"; "3"]
  /\ missingRequired (draft "Third" 3) = false
  /\ ID (draft "Third" 3) = ""
  /\ fst (addPaper globalsAfterOwnID (draft "Third" 3))
     = StatusCreated "Paper added successfully" (withID (draft "Third" 3) "3")
  /\ In (ID (withID (draft "Third" 3) "3")) (storedIDs globalsAfterOwnID)
  /\ storedIDs (snd (addPaper globalsAfterOwnID (draft "Third" 3))) = ["1"; "3"; "3"].
Proof.
  split; [apply reachable_add, reachable_init|].
  repeat split. simpl. auto.
Qed.

(** ** Interleaved inserts *)

Lemma step_toAppend (g : Globals) (h : Concurrent.Handler) :
  (List.length (papers (fst (Concurrent.step g h)))
   + Concurrent.toAppend (snd (Concurrent.step g h))
   = List.length (papers g) + Concurrent.toAppend h)%nat.
Proof.
  destruct h as [p|p|p|r]; simpl.
  - destruct (missingRequired p); simpl; [reflexivity|].
    destruct (String.eqb (ID p) ""); reflexivity.
  - reflexivity.
  - rewrite length_app. simpl. lia.
  - reflexivity.
Qed.

Lemma toAppendAll_cons (h : Concurrent.Handler) (hs : list Concurrent.Handler) :
  Concurrent.toAppendAll (h :: hs)
  = (Concurrent.toAppend h + Concurrent.toAppendAll hs)%nat.
Proof. reflexivity. Qed.

Lemma stepAt_toAppend (i : nat) (g : Globals) (hs : list Concurrent.Handler) :
  (List.length (papers (fst (Concurrent.stepAt i g hs)))
   + Concurrent.toAppendAll (snd (Concurrent.stepAt i g hs))
   = List.length (papers g) + Concurrent.toAppendAll hs)%nat.
Proof.
  revert i. induction hs as [|h rest IH]; intros i; [destruct i; reflexivity|].
  destruct i as [|j]; cbn [Concurrent.stepAt].
  - pose proof (step_toAppend g h) as H.
    destruct (Concurrent.step g h) as [g' h']. cbn [fst snd] in *.
    rewrite !toAppendAll_cons. lia.
  - specialize (IH j).
    destruct (Concurrent.stepAt j g rest) as [g' rest']. cbn [fst snd] in *.
    rewrite !toAppendAll_cons. lia.
Qed.

Lemma run_toAppend (schedule : list nat) (g : Globals) (hs : list Concurrent.Handler) :
  (List.length (papers (fst (Concurrent.run schedule g hs)))
   + Concurrent.toAppendAll (snd (Concurrent.run schedule g hs))
   = List.length (papers g) + Concurrent.toAppendAll hs)%nat.
Proof.
  revert g hs. induction schedule as [|i later IH]; intros g hs; simpl; [reflexivity|].
  pose proof (stepAt_toAppend i g hs) as H.
  destruct (Concurrent.stepAt i g hs) as [g' hs']. simpl in H.
  rewrite IH. exact H.
Qed.

Lemma toAppendAll_responded (hs : list Concurrent.Handler) :
  forallb Concurrent.responded hs = true -> Concurrent.toAppendAll hs = 0%nat.
Proof.
  induction hs as [|h rest IH]; simpl; [reflexivity|].
  intros H. apply andb_true_iff in H. destruct H as [Hh Hr].
  rewrite (IH Hr). now destruct h.
Qed.

Lemma toAppendAll_valid (newPapers : list ResearchPaper) :
  forallb (fun p => negb (missingRequired p)) newPapers = true ->
  Concurrent.toAppendAll (map Concurrent.Decoded newPapers) = List.length newPapers.
Proof.
  induction newPapers as [|p rest IH]; simpl; [reflexivity|].
  intros H. apply andb_true_iff in H. destruct H as [Hp Hr].
  rewrite (IH Hr). now destruct (missingRequired p).
Qed.

(** X13. No insert is lost: whatever the interleaving, once all the handlers of
    N valid payloads have answered, the store holds N more papers. *)
Lemma no_insert_lost (schedule : list nat) (g : Globals) (newPapers : list ResearchPaper) :
  forallb (fun p => negb (missingRequired p)) newPapers = true ->
  forallb Concurrent.responded
    (snd (Concurrent.run schedule g (map Concurrent.Decoded newPapers))) = true ->
  List.length (papers (fst (Concurrent.run schedule g (map Concurrent.Decoded newPapers))))
  = (List.length (papers g) + List.length newPapers)%nat.
Proof.
  intros Hv Hd.
  pose proof (run_toAppend schedule g (map Concurrent.Decoded newPapers)) as H.
  rewrite (toAppendAll_responded _ Hd), (toAppendAll_valid _ Hv) in H. lia.
Qed.

(** A handler run on its own, three moves in a row, is [addPaper]. *)
Lemma run_alone_is_addPaper (g : Globals) (newPaper : ResearchPaper) :
  Concurrent.run [0; 0; 0]%nat g [Concurrent.Decoded newPaper]
  = (snd (addPaper g newPaper), [Concurrent.Responded (fst (addPaper g newPaper))]).
Proof.
  unfold addPaper. simpl.
  destruct (missingRequired newPaper); simpl; [reflexivity|].
  destruct (String.eqb (ID newPaper) ""); reflexivity.
Qed.

(** C4 fails on the code.  Two valid requests without id, interleaved so
    that both calls of [generateID] come before either [append], are both
    answered with the id "2".  Both papers are stored: the store grows from
    1 to 3 papers. *)
Theorem C4_concurrent_inserts_share_id :
  forallb Concurrent.responded
    (snd (Concurrent.run racingSchedule initialGlobals twoRequests)) = true
  /\ Concurrent.assignedIDs
       (snd (Concurrent.run racingSchedule initialGlobals twoRequests))
     = ["2"; "2"]
  /\ storedIDs (fst (Concurrent.run racingSchedule initialGlobals twoRequests))
     = ["1"; "2"; "2"]
  /\ ~ NoDup (Concurrent.assignedIDs
                (snd (Concurrent.run racingSchedule initialGlobals twoRequests))).
Proof.
  repeat split. simpl. intros H. inversion H as [|x l Hx Hl]. apply Hx. simpl. auto.
Qed.

(** ** The handshake *)

Section Handshake.

Local Open Scope nat_scope.

Variable directory : nat -> bool.

Lemma firstSuccessCapped_pos (bound i : nat) :
  0 < bound -> 0 < HandshakeSpec.firstSuccessCapped directory bound i.
Proof.
  destruct bound as [|bound']; [lia|]. intros _. simpl.
  destruct (directory i); [lia|]. destruct bound'; lia.
Qed.

Lemma firstSuccessCapped_le (bound i : nat) :
  HandshakeSpec.firstSuccessCapped directory bound i <= bound.
Proof.
  revert i. induction bound as [|bound' IH]; intros i; simpl; [lia|].
  destruct (directory i); [lia|].
  destruct bound' as [|b]; [lia|]. specialize (IH (i + 1)). lia.
Qed.

Lemma spaced_step (n from : nat) :
  0 < n ->
  HandshakeSpec.spaced (S n) from
  = Register (from + 1) :: Sleep 2 :: HandshakeSpec.spaced n (from + 1).
Proof. destruct n; [lia | reflexivity]. Qed.

Lemma attempts_spaced (n from : nat) :
  attempts (HandshakeSpec.spaced n from) = n.
Proof.
  revert from. induction n as [|n IH]; intros from; [reflexivity|].
  destruct n as [|m]; [reflexivity|].
  rewrite spaced_step by lia. unfold attempts in *.
  cbn [filter isRegister List.length]. now rewrite IH.
Qed.

(** The loop, started at iteration [i] with the rest of the range to go,
    makes the attempts the specification describes. *)
Lemma registerLoop_spec (remaining i : nat) :
  i + remaining = maxRetries ->
  registerLoop directory remaining i
  = (HandshakeSpec.spaced (HandshakeSpec.firstSuccessCapped directory remaining i) i,
     if existsb directory (seq i remaining) then Registered else GaveUp).
Proof.
  revert i. induction remaining as [|r IH]; intros i Hi; [reflexivity|].
  cbn [registerLoop HandshakeSpec.firstSuccessCapped seq existsb].
  destruct (directory i) eqn:Hd; [reflexivity|].
  rewrite IH by lia. cbn [orb].
  replace (seq (i + 1) r) with (seq (S i) r) by (f_equal; lia).
  destruct r as [|r'].
  - assert (Hlt : (i <? maxRetries - 1) = false) by (apply Nat.ltb_ge; lia).
    rewrite Hlt. reflexivity.
  - assert (Hlt : (i <? maxRetries - 1) = true) by (apply Nat.ltb_lt; lia).
    rewrite Hlt.
    rewrite spaced_step by (apply firstSuccessCapped_pos; lia).
    reflexivity.
Qed.

Lemma firstSuccessCapped_all_fail (bound i : nat) :
  (forall j, j < bound -> directory (i + j) = false) ->
  HandshakeSpec.firstSuccessCapped directory bound i = bound.
Proof.
  revert i. induction bound as [|b IH]; intros i H; [reflexivity|].
  simpl. rewrite <- (Nat.add_0_r i) at 1. rewrite H by lia.
  destruct b as [|b']; [reflexivity|]. f_equal. apply IH.
  intros j Hj. replace (i + 1 + j) with (i + S j) by lia. apply H. lia.
Qed.

Lemma firstSuccessCapped_first (bound i k : nat) :
  k < bound ->
  directory (i + k) = true ->
  (forall j, j < k -> directory (i + j) = false) ->
  HandshakeSpec.firstSuccessCapped directory bound i = k + 1.
Proof.
  revert i k. induction bound as [|b IH]; intros i k Hk Ht Hf; [lia|].
  simpl. destruct k as [|k'].
  - rewrite Nat.add_0_r in Ht. now rewrite Ht.
  - rewrite <- (Nat.add_0_r i) at 1. rewrite Hf by lia.
    destruct b as [|b']; [lia|]. rewrite (IH (i + 1) k'); [lia|lia| |].
    + replace (i + 1 + k') with (i + S k') by lia. exact Ht.
    + intros j Hj. replace (i + 1 + j) with (i + S j) by lia. apply Hf. lia.
Qed.

Lemma existsb_all_fail (bound i : nat) :
  (forall j, j < bound -> directory (i + j) = false) ->
  existsb directory (seq i bound) = false.
Proof.
  revert i. induction bound as [|b IH]; intros i H; [reflexivity|].
  simpl. rewrite <- (Nat.add_0_r i) at 1. rewrite H by lia. simpl.
  apply IH. intros j Hj. replace (S i + j) with (i + S j) by lia. apply H. lia.
Qed.

Lemma existsb_some_success (bound i k : nat) :
  k < bound -> directory (i + k) = true ->
  existsb directory (seq i bound) = true.
Proof.
  intros Hk Ht. apply existsb_exists. exists (i + k). split; [|exact Ht].
  apply in_seq. lia.
Qed.

End Handshake.

(** C7. Whatever the directory answers, the attempts are made one after
    the other, numbered from 1, with a wait of 2 between an attempt and the
    next and none after the last; their number is the index of the first
    successful answer, capped at 5.  If the first five answers are
    failures there are exactly 5 attempts and the loop ends having given
    up; if answer number k+1 is the first success there are exactly k+1
    attempts and the loop ends registered. *)
Theorem C7_handshake_attempts :
  forall directory : nat -> bool,
    let n := HandshakeSpec.firstSuccessCapped directory maxRetries 0 in
    fst (registerWithSuperApp directory) = HandshakeSpec.spaced n 0
    /\ attempts (fst (registerWithSuperApp directory)) = n
    /\ (1 <= n <= 5)%nat
    /\ ((forall j, (j < 5)%nat -> directory j = false) ->
        attempts (fst (registerWithSuperApp directory)) = 5%nat
        /\ snd (registerWithSuperApp directory) = GaveUp)
    /\ (forall k, (k < 5)%nat -> directory k = true ->
        (forall j, (j < k)%nat -> directory j = false) ->
        attempts (fst (registerWithSuperApp directory)) = (k + 1)%nat
        /\ snd (registerWithSuperApp directory) = Registered).
Proof.
  intros directory n. unfold registerWithSuperApp.
  rewrite (registerLoop_spec directory maxRetries 0 eq_refl).
  cbn [fst snd]. fold n. rewrite attempts_spaced.
  split; [reflexivity|]. split; [reflexivity|]. split.
  - split.
    + apply (firstSuccessCapped_pos directory maxRetries 0). unfold maxRetries. lia.
    + apply (firstSuccessCapped_le directory maxRetries 0).
  - split.
    + intros Hf. split.
      * apply (firstSuccessCapped_all_fail directory maxRetries 0). exact Hf.
      * rewrite (existsb_all_fail directory maxRetries 0); [reflexivity|exact Hf].
    + intros k Hk Ht Hf. split.
      * apply (firstSuccessCapped_first directory maxRetries 0 k); assumption.
      * rewrite (existsb_some_success directory maxRetries 0 k); [reflexivity| |];
          assumption.
Qed.

(** C7 witness: a directory that never answers, and one that accepts the
    third attempt. *)
Lemma C7_witness :
  (attempts (fst (registerWithSuperApp (fun _ => false))) = 5%nat
   /\ snd (registerWithSuperApp (fun _ => false)) = GaveUp)
  /\ (attempts (fst (registerWithSuperApp (Nat.eqb 2))) = 3%nat
      /\ snd (registerWithSuperApp (Nat.eqb 2)) = Registered)
  /\ fst (registerWithSuperApp (Nat.eqb 2))
     = [Register 1; Sleep 2; Register 2; Sleep 2; Register 3].
Proof.
  split; [|split].
  - apply (C7_handshake_attempts (fun _ => false)). reflexivity.
  - apply (C7_handshake_attempts (Nat.eqb 2)) with (k := 2%nat).
    + lia.
    + reflexivity.
    + intros j Hj. destruct j as [|[|j]]; [reflexivity | reflexivity | lia].
  - apply (C7_handshake_attempts (Nat.eqb 2)).
Defined.

(** * Further properties of the code *)

(** ** Queries and inserts together *)

Lemma hasAccess_same_memberships (g g' : Globals) (paper : ResearchPaper) (userID : Z) :
  workspaceUsers g' = workspaceUsers g -> siteUsers g' = siteUsers g ->
  hasAccess g' paper userID = hasAccess g paper userID.
Proof. intros Hw Hs. unfold hasAccess. now rewrite Hw, Hs. Qed.

Lemma filterAccessiblePapers_app (g : Globals) (l1 l2 : list ResearchPaper) (userID : Z) :
  filterAccessiblePapers g (l1 ++ l2) userID
  = filterAccessiblePapers g l1 userID ++ filterAccessiblePapers g l2 userID.
Proof. rewrite !filterAccessiblePapers_filter. apply filter_app. Qed.

(** X1. After a successful insert, what a user gets from [/get-research] is
    what they got before, followed by the stored paper if they may see it:
    an insert neither hides nor reorders anything for anybody. *)
Theorem getResearch_after_addPaper :
  forall (g : Globals) (newPaper : ResearchPaper) (userID : Z),
    Title newPaper <> "" -> Authors newPaper <> "" -> Abstract newPaper <> "" ->
    let stored := if String.eqb (ID newPaper) "" then withID newPaper (generateID g)
                  else newPaper in
    fst (getResearch (snd (addPaper g newPaper)) userID)
    = fst (getResearch g userID)
      ++ (if hasAccess g newPaper userID then [stored] else []).
Proof.
  intros g newPaper userID Ht Ha Hb stored.
  pose proof (missingRequired_false newPaper Ht Ha Hb) as Hv.
  unfold addPaper. rewrite Hv. fold stored. unfold getResearch. cbn [fst snd].
  cbn [appendPaper papers]. rewrite filterAccessiblePapers_app.
  assert (E : forall l, filterAccessiblePapers (appendPaper g stored) l userID
                        = filterAccessiblePapers g l userID).
  { intros l. rewrite !filterAccessiblePapers_filter. apply filter_ext.
    intros p. now apply hasAccess_same_memberships. }
  rewrite !E. f_equal.
  assert (Hs : hasAccess g stored userID = hasAccess g newPaper userID).
  { unfold stored. now destruct (String.eqb (ID newPaper) ""). }
  unfold filterAccessiblePapers. cbn [fold_left]. rewrite Hs.
  now destruct (hasAccess g newPaper userID).
Qed.

Lemma getResearch_after_addPaper_witness :
  fst (getResearch (snd (addPaper initialGlobals (draft "Tides" 2))) 3)
  = fst (getResearch initialGlobals 3)
    ++ (if hasAccess initialGlobals (draft "Tides" 2) 3
        then [withID (draft "Tides" 2) (generateID initialGlobals)] else []).
Proof.
  apply (getResearch_after_addPaper initialGlobals (draft "Tides" 2) 3);
    discriminate.
Defined.

(** X2. The owner of a paper that was just inserted finds it in their own
    list, last, whatever its sharing flag and scope are. *)
Theorem owner_sees_inserted_paper :
  forall (g : Globals) (newPaper : ResearchPaper),
    Title newPaper <> "" -> Authors newPaper <> "" -> Abstract newPaper <> "" ->
    exists (stored : ResearchPaper) (before : list ResearchPaper),
      fst (addPaper g newPaper) = StatusCreated "Paper added successfully" stored
      /\ fst (getResearch (snd (addPaper g newPaper)) (UserID newPaper))
         = before ++ [stored].
Proof.
  intros g newPaper Ht Ha Hb.
  pose proof (missingRequired_false newPaper Ht Ha Hb) as Hv.
  set (stored := if String.eqb (ID newPaper) "" then withID newPaper (generateID g)
                 else newPaper).
  exists stored, (filterAccessiblePapers (appendPaper g stored) (papers g) (UserID newPaper)).
  unfold addPaper. rewrite Hv. fold stored. split; [reflexivity|].
  unfold getResearch. cbn [fst snd]. cbn [appendPaper papers].
  rewrite filterAccessiblePapers_app. f_equal.
  assert (Ho : UserID stored = UserID newPaper).
  { unfold stored. now destruct (String.eqb (ID newPaper) ""). }
  unfold filterAccessiblePapers. cbn [fold_left].
  rewrite <- Ho, hasAccess_owner. reflexivity.
Qed.

Lemma owner_sees_inserted_paper_witness :
  exists (stored : ResearchPaper) (before : list ResearchPaper),
    fst (addPaper initialGlobals (draft "Tides" 2))
    = StatusCreated "Paper added successfully" stored
    /\ fst (getResearch (snd (addPaper initialGlobals (draft "Tides" 2))) 2)
       = before ++ [stored].
Proof.
  apply (owner_sees_inserted_paper initialGlobals (draft "Tides" 2)); discriminate.
Defined.

(** X3. [/get-research] never returns a paper that is not stored, and never
    returns to a user a paper that is not shared and belongs to somebody
    else. *)
Theorem getResearch_never_leaks_private :
  forall (g : Globals) (userID : Z) (paper : ResearchPaper),
    In paper (fst (getResearch g userID)) ->
    In paper (papers g) /\ (UserID paper = userID \/ IsPublic paper = true).
Proof.
  intros g userID paper H. unfold getResearch in H. cbn [fst] in H.
  rewrite filterAccessiblePapers_filter in H. apply filter_In in H.
  destruct H as [Hin Hacc]. split; [exact Hin|].
  unfold hasAccess in Hacc.
  destruct (Z.eqb_spec (UserID paper) userID) as [Ho|Ho]; [now left|].
  destruct (IsPublic paper); [now right | discriminate].
Qed.

Lemma getResearch_never_leaks_private_witness :
  In (hd blankPaper getSamplePapers) (papers initialGlobals)
  /\ (UserID (hd blankPaper getSamplePapers) = 7
      \/ IsPublic (hd blankPaper getSamplePapers) = true).
Proof.
  apply (getResearch_never_leaks_private initialGlobals 7).
  simpl. left. reflexivity.
Defined.

(** X4. [/get-research] always returns to a user every stored paper they
    own and every stored shared paper whose scope is "everyone". *)
Theorem getResearch_returns_own_and_everyone :
  forall (g : Globals) (userID : Z) (paper : ResearchPaper),
    In paper (papers g) ->
    UserID paper = userID
    \/ (IsPublic paper = true /\ PublicOption paper = "everyone") ->
    In paper (fst (getResearch g userID)).
Proof.
  intros g userID paper Hin H. unfold getResearch. cbn [fst].
  rewrite filterAccessiblePapers_filter. apply filter_In. split; [exact Hin|].
  unfold hasAccess. destruct (Z.eqb_spec (UserID paper) userID); [reflexivity|].
  destruct H as [H|[Hp He]]; [contradiction|]. now rewrite Hp, He.
Qed.

Lemma getResearch_returns_own_and_everyone_witness :
  In (hd blankPaper getSamplePapers) (fst (getResearch initialGlobals 7)).
Proof.
  apply getResearch_returns_own_and_everyone.
  - simpl. left. reflexivity.
  - right. split; reflexivity.
Defined.

(** ** Memberships *)

(** X5. Adding users to the site list or pairs to the workspace list never
    takes an access away. *)
Theorem hasAccess_monotone_in_memberships :
  forall (g g' : Globals) (paper : ResearchPaper) (userID : Z),
    incl (siteUsers g) (siteUsers g') ->
    incl (workspaceUsers g) (workspaceUsers g') ->
    hasAccess g paper userID = true ->
    hasAccess g' paper userID = true.
Proof.
  intros g g' paper userID Hs Hw. unfold hasAccess.
  destruct (UserID paper =? userID); [reflexivity|].
  destruct (negb (IsPublic paper)); [discriminate|].
  destruct (String.eqb (PublicOption paper) "everyone"); [reflexivity|].
  destruct (String.eqb (PublicOption paper) "site").
  - rewrite !siteLoop_In. apply Hs.
  - destruct (String.eqb (PublicOption paper) "workspace"); [|discriminate].
    rewrite !workspaceLoop_In. apply Hw.
Qed.

Lemma hasAccess_monotone_in_memberships_witness :
  hasAccess
    {| papers := []; workspaceUsers := [WorkspaceUser.mk 4 4; WorkspaceUser.mk 0 5];
       siteUsers := [9] |} workspacePaperNoQualifier 5 = true.
Proof.
  apply (hasAccess_monotone_in_memberships globalsWithWorkspaceZero).
  - simpl. intros x [].
  - simpl. intros x [<-|[]]. right. left. reflexivity.
  - reflexivity.
Defined.

(** X6. Only which users and pairs are listed matters, not their order nor
    how often they are listed: two membership indexes with the same
    members give the same decisions and the same filtered lists. *)
Theorem hasAccess_depends_on_members_only :
  forall (g g' : Globals),
    (forall u, In u (siteUsers g) <-> In u (siteUsers g')) ->
    (forall wu, In wu (workspaceUsers g) <-> In wu (workspaceUsers g')) ->
    forall (allPapers : list ResearchPaper) (userID : Z),
      (forall paper, hasAccess g paper userID = hasAccess g' paper userID)
      /\ filterAccessiblePapers g allPapers userID
         = filterAccessiblePapers g' allPapers userID.
Proof.
  intros g g' Hs Hw allPapers userID.
  assert (E : forall paper, hasAccess g paper userID = hasAccess g' paper userID).
  { intros paper. unfold hasAccess.
    destruct (UserID paper =? userID); [reflexivity|].
    destruct (negb (IsPublic paper)); [reflexivity|].
    destruct (String.eqb (PublicOption paper) "everyone"); [reflexivity|].
    destruct (String.eqb (PublicOption paper) "site").
    - apply eq_true_iff_eq. rewrite !siteLoop_In. apply Hs.
    - destruct (String.eqb (PublicOption paper) "workspace"); [|reflexivity].
      apply eq_true_iff_eq. rewrite !workspaceLoop_In. apply Hw. }
  split; [exact E|].
  rewrite !filterAccessiblePapers_filter. apply filter_ext. exact E.
Qed.

Lemma hasAccess_depends_on_members_only_witness :
  hasAccess initialGlobals workspacePaperNoQualifier 3
  = hasAccess
      {| papers := []; workspaceUsers := List.rev getSampleWorkspaceUsers;
         siteUsers := [4; 3; 3; 2; 1] |} workspacePaperNoQualifier 3.
Proof.
  refine (proj1 (hasAccess_depends_on_members_only initialGlobals
                   {| papers := []; workspaceUsers := List.rev getSampleWorkspaceUsers;
                      siteUsers := [4; 3; 3; 2; 1] |} _ _ [] 3) _).
  - intros u. simpl. intuition.
  - intros wu. cbn [workspaceUsers initialGlobals]. apply in_rev.
Defined.

(** X7. A user who is on no list (not a site user, in no workspace pair)
    sees exactly the papers they own and the shared papers of scope
    "everyone". *)
Theorem getResearch_of_unlisted_user :
  forall (g : Globals) (userID : Z),
    ~ In userID (siteUsers g) ->
    (forall wu, In wu (workspaceUsers g) -> WorkspaceUser.UserID wu <> userID) ->
    fst (getResearch g userID) = filter (ownOrEveryone userID) (papers g).
Proof.
  intros g userID Hs Hw. unfold getResearch. cbn [fst].
  rewrite filterAccessiblePapers_filter. apply filter_ext. intros paper.
  unfold hasAccess, ownOrEveryone.
  destruct (UserID paper =? userID); [reflexivity|].
  destruct (IsPublic paper); [|reflexivity]. cbn [negb orb andb].
  destruct (String.eqb (PublicOption paper) "everyone"); [reflexivity|].
  destruct (String.eqb (PublicOption paper) "site").
  - destruct (siteLoop (siteUsers g) userID) eqn:E; [|reflexivity].
    apply siteLoop_In in E. contradiction.
  - destruct (String.eqb (PublicOption paper) "workspace"); [|reflexivity].
    destruct (workspaceLoop _ _ _) eqn:E; [|reflexivity].
    apply workspaceLoop_In in E. apply Hw in E. now simpl in E.
Qed.

Lemma getResearch_of_unlisted_user_witness :
  fst (getResearch initialGlobals 7) = filter (ownOrEveryone 7) getSamplePapers.
Proof.
  apply (getResearch_of_unlisted_user initialGlobals 7).
  - simpl. lia.
  - simpl. intros wu H.
    repeat (destruct H as [<-|H]; [simpl; lia|]). destruct H.
Defined.

(** ** What holds of every store the server can reach *)

Lemma Sprintf_d_nonempty (n : nat) : Sprintf_d n <> "".
Proof.
  unfold Sprintf_d. intros H.
  apply (f_equal NilEmpty.uint_of_string) in H.
  rewrite NilEmpty.usu in H. simpl in H. injection H as H.
  pose proof (DecimalNat.Unsigned.to_of (Nat.to_uint n)) as T.
  rewrite DecimalNat.Unsigned.of_to in T. rewrite H in T. discriminate T.
Qed.

(** X8. In every reachable store each paper has a title, authors, an
    abstract and an id, none of them empty: the validation and the id
    generation of [/add-paper] keep what the seed has. *)
Theorem reachable_papers_complete :
  forall g : Globals,
    reachable g ->
    forall paper : ResearchPaper,
      In paper (papers g) ->
      Title paper <> "" /\ Authors paper <> "" /\ Abstract paper <> ""
      /\ ID paper <> "".
Proof.
  intros g Hr. induction Hr as [|g newPaper Hr IH]; intros paper Hin.
  - simpl in Hin. destruct Hin as [<-|[]]. repeat split; discriminate.
  - unfold addPaper in Hin.
    destruct (missingRequired newPaper) eqn:Hv; cbn [snd] in Hin; [now apply IH|].
    cbn [appendPaper papers] in Hin. apply in_app_or in Hin.
    destruct Hin as [Hin|[<-|[]]]; [now apply IH|].
    unfold missingRequired in Hv. apply orb_false_iff in Hv. destruct Hv as [Hv Hb].
    apply orb_false_iff in Hv. destruct Hv as [Ht Ha].
    apply String.eqb_neq in Ht, Ha, Hb.
    destruct (String.eqb_spec (ID newPaper) "") as [He|He].
    + repeat split; try assumption. simpl. apply Sprintf_d_nonempty.
    + repeat split; assumption.
Qed.

Lemma reachable_papers_complete_witness :
  Title (withID (draft "Tides" 2) "2") <> ""
  /\ Authors (withID (draft "Tides" 2) "2") <> ""
  /\ Abstract (withID (draft "Tides" 2) "2") <> ""
  /\ ID (withID (draft "Tides" 2) "2") <> "".
Proof.
  apply (reachable_papers_complete (snd (addPaper initialGlobals (draft "Tides" 2)))).
  - apply reachable_add, reachable_init.
  - simpl. right. left. reflexivity.
Defined.

(** X9. No request changes the memberships or touches the seeded papers:
    in every reachable store the two membership lists are the seeded ones
    and the stored papers are the seeded papers followed by the added
    ones. *)
Theorem reachable_keeps_seed :
  forall g : Globals,
    reachable g ->
    workspaceUsers g = getSampleWorkspaceUsers
    /\ siteUsers g = getSampleSiteUsers
    /\ exists added : list ResearchPaper, papers g = getSamplePapers ++ added.
Proof.
  intros g Hr. induction Hr as [|g newPaper Hr (Hw & Hs & added & Hp)].
  - repeat split. exists []. reflexivity.
  - unfold addPaper. destruct (missingRequired newPaper); cbn [snd].
    + repeat split; try assumption. now exists added.
    + cbn [appendPaper workspaceUsers siteUsers papers].
      repeat split; try assumption.
      eexists. rewrite Hp, <- app_assoc. reflexivity.
Qed.

Lemma reachable_keeps_seed_witness :
  workspaceUsers globalsAfterOwnID = getSampleWorkspaceUsers
  /\ siteUsers globalsAfterOwnID = getSampleSiteUsers
  /\ exists added : list ResearchPaper,
       papers globalsAfterOwnID = getSamplePapers ++ added.
Proof.
  apply reachable_keeps_seed. apply reachable_add, reachable_init.
Defined.

(** ** Generated ids when nobody brings an id *)

Lemma numbered_NoDup (g : Globals) :
  numberedByPosition g -> NoDup (storedIDs g).
Proof.
  intros Hn. apply NoDup_nth_error. intros i j Hi E.
  unfold storedIDs in *. rewrite length_map in Hi.
  rewrite !nth_error_map in E.
  destruct (nth_error (papers g) i) as [p|] eqn:Ei;
    [|apply nth_error_None in Ei; lia].
  destruct (nth_error (papers g) j) as [q|] eqn:Ej; [|discriminate].
  simpl in E. injection E as E.
  rewrite (Hn i p Ei), (Hn j q Ej) in E. apply Sprintf_d_inj in E. lia.
Qed.

Lemma numbered_serveAddPaper (requests : list ResearchPaper) (g : Globals) :
  Forall (fun newPaper => ID newPaper = "") requests ->
  numberedByPosition g -> numberedByPosition (serveAddPaper g requests).
Proof.
  intros Hf. revert g. induction Hf as [|p rest Hp Hf IH]; intros g Hn; [exact Hn|].
  cbn [serveAddPaper fold_left]. apply IH.
  now apply numbered_addPaper_without_id.
Qed.

(** X10. When the requests are served one after the other and none of them
    brings an id, the ids in the store are pairwise distinct, whatever
    else the payloads contain and whether they pass validation or not. *)
Theorem ids_distinct_without_caller_ids :
  forall requests : list ResearchPaper,
    Forall (fun newPaper => ID newPaper = "") requests ->
    NoDup (storedIDs (serveAddPaper initialGlobals requests)).
Proof.
  intros requests Hf. apply numbered_NoDup.
  apply numbered_serveAddPaper; [exact Hf | apply initialGlobals_numbered].
Qed.

Lemma ids_distinct_without_caller_ids_witness :
  NoDup (storedIDs (serveAddPaper initialGlobals
                      [draft "A" 1; blankPaper; draft "B" 2])).
Proof.
  apply ids_distinct_without_caller_ids.
  repeat constructor.
Defined.

(** X11. The generated id is a function of the number of stored papers and
    of nothing else: two stores get the same id exactly when they hold
    the same number of papers. *)
Theorem generateID_same_iff_same_length :
  forall g g' : Globals,
    generateID g = generateID g'
    <-> List.length (papers g) = List.length (papers g').
Proof.
  intros g g'. unfold generateID. split.
  - intros H. apply Sprintf_d_inj in H. lia.
  - intros H. now rewrite H.
Qed.

(** ** Interleaved handlers *)

Lemma step_appends (g : Globals) (h : Concurrent.Handler) :
  (exists added, papers (fst (Concurrent.step g h)) = papers g ++ added)
  /\ workspaceUsers (fst (Concurrent.step g h)) = workspaceUsers g
  /\ siteUsers (fst (Concurrent.step g h)) = siteUsers g.
Proof.
  destruct h as [p|p|p|r]; simpl.
  - destruct (missingRequired p); [|destruct (String.eqb (ID p) "")]; simpl;
      (split; [exists []; now rewrite app_nil_r | split; reflexivity]).
  - split; [exists []; now rewrite app_nil_r | split; reflexivity].
  - split; [now exists [p] | split; reflexivity].
  - split; [exists []; now rewrite app_nil_r | split; reflexivity].
Qed.

Lemma stepAt_appends (i : nat) (g : Globals) (hs : list Concurrent.Handler) :
  (exists added, papers (fst (Concurrent.stepAt i g hs)) = papers g ++ added)
  /\ workspaceUsers (fst (Concurrent.stepAt i g hs)) = workspaceUsers g
  /\ siteUsers (fst (Concurrent.stepAt i g hs)) = siteUsers g
  /\ List.length (snd (Concurrent.stepAt i g hs)) = List.length hs.
Proof.
  revert i. induction hs as [|h rest IH]; intros i.
  - destruct i; simpl; (split; [exists []; now rewrite app_nil_r | auto]).
  - destruct i as [|j]; cbn [Concurrent.stepAt].
    + pose proof (step_appends g h) as (Ha & Hw & Hs).
      destruct (Concurrent.step g h) as [g' h']. cbn [fst snd] in *. auto.
    + specialize (IH j) as (Ha & Hw & Hs & Hl).
      destruct (Concurrent.stepAt j g rest) as [g' rest']. cbn [fst snd] in *.
      repeat split; try assumption. simpl. now rewrite Hl.
Qed.

(** X12. Whatever the interleaving of the handlers, the store only grows at
    its end: the papers stored before stay where they are, the membership
    lists are not written, and no handler appears or disappears. *)
Theorem run_only_appends :
  forall (schedule : list nat) (g : Globals) (hs : list Concurrent.Handler),
    (exists added,
        papers (fst (Concurrent.run schedule g hs)) = papers g ++ added)
    /\ workspaceUsers (fst (Concurrent.run schedule g hs)) = workspaceUsers g
    /\ siteUsers (fst (Concurrent.run schedule g hs)) = siteUsers g
    /\ List.length (snd (Concurrent.run schedule g hs)) = List.length hs.
Proof.
  intros schedule. induction schedule as [|i later IH]; intros g hs.
  - simpl. split; [exists []; now rewrite app_nil_r | auto].
  - cbn [Concurrent.run].
    pose proof (stepAt_appends i g hs) as ((a1 & Ha1) & Hw1 & Hs1 & Hl1).
    destruct (Concurrent.stepAt i g hs) as [g' hs']. cbn [fst snd] in *.
    specialize (IH g' hs') as ((a2 & Ha2) & Hw2 & Hs2 & Hl2).
    repeat split.
    + exists (a1 ++ a2). rewrite Ha2, Ha1. now rewrite app_assoc.
    + congruence.
    + congruence.
    + congruence.
Qed.

(** X13 witness: the two racing requests are both stored. *)
Lemma no_insert_lost_witness :
  List.length (papers (fst (Concurrent.run racingSchedule initialGlobals
                              (map Concurrent.Decoded [draft "A" 1; draft "B" 2]))))
  = (List.length (papers initialGlobals) + 2)%nat.
Proof.
  apply (no_insert_lost racingSchedule initialGlobals [draft "A" 1; draft "B" 2]);
    reflexivity.
Defined.

(** ** Time spent in the handshake *)

Lemma sleptSeconds_spaced (n from : nat) :
  sleptSeconds (HandshakeSpec.spaced (S n) from) = 2 * Z.of_nat n.
Proof.
  revert from. induction n as [|n IH]; intros from; [reflexivity|].
  rewrite spaced_step by lia. cbn [sleptSeconds fold_right].
  fold (sleptSeconds (HandshakeSpec.spaced (S n) (from + 1))).
  rewrite IH. lia.
Qed.

Lemma spaced_ends_with_attempt (n from : nat) :
  exists before,
    HandshakeSpec.spaced (S n) from = before ++ [Register (from + S n)].
Proof.
  revert from. induction n as [|n IH]; intros from.
  - exists []. reflexivity.
  - rewrite spaced_step by lia. destruct (IH (from + 1)%nat) as [before Hb].
    exists (Register (from + 1) :: Sleep 2 :: before). rewrite Hb.
    replace (from + 1 + S n)%nat with (from + S (S n))%nat by lia. reflexivity.
Qed.

(** X14. The handshake sleeps 2 seconds for every attempt but the last,
    at most 8 seconds in all, and the last thing it does is an attempt:
    it never sleeps after the attempt that ends it. *)
Theorem handshake_waits_between_attempts_only :
  forall directory : nat -> bool,
    let trace := fst (registerWithSuperApp directory) in
    sleptSeconds trace = 2 * (Z.of_nat (attempts trace) - 1)
    /\ 0 <= sleptSeconds trace <= 8
    /\ exists before, trace = before ++ [Register (attempts trace)].
Proof.
  intros directory trace. unfold trace, registerWithSuperApp.
  rewrite (registerLoop_spec directory maxRetries 0 eq_refl). cbn [fst].
  rewrite attempts_spaced.
  pose proof (firstSuccessCapped_pos directory maxRetries 0) as Hpos.
  pose proof (firstSuccessCapped_le directory maxRetries 0) as Hle.
  assert (Hmax : maxRetries = 5%nat) by reflexivity.
  destruct (HandshakeSpec.firstSuccessCapped directory maxRetries 0) as [|n];
    [exfalso; lia|].
  rewrite sleptSeconds_spaced. repeat split; try lia.
  destruct (spaced_ends_with_attempt n 0) as [before Hb]. now exists before.
Qed.

(** ** Every request is answered *)

Lemma step_movesLeft (g : Globals) (h : Concurrent.Handler) :
  movesLeft (snd (Concurrent.step g h)) = Nat.pred (movesLeft h).
Proof.
  destruct h as [p|p|p|r]; simpl; try reflexivity.
  destruct (missingRequired p); [reflexivity|].
  destruct (String.eqb (ID p) ""); reflexivity.
Qed.

Lemma stepAt_nth_same (i : nat) (g : Globals) (hs : list Concurrent.Handler)
    (h : Concurrent.Handler) :
  nth_error hs i = Some h ->
  nth_error (snd (Concurrent.stepAt i g hs)) i = Some (snd (Concurrent.step g h)).
Proof.
  revert i. induction hs as [|h0 rest IH]; intros i Hn.
  - destruct i; discriminate.
  - destruct i as [|j]; cbn [Concurrent.stepAt].
    + simpl in Hn. injection Hn as ->.
      destruct (Concurrent.step g h) as [g' h']. reflexivity.
    + simpl in Hn. specialize (IH j Hn).
      destruct (Concurrent.stepAt j g rest) as [g' rest']. exact IH.
Qed.

Lemma stepAt_nth_other (i j : nat) (g : Globals) (hs : list Concurrent.Handler) :
  j <> i ->
  nth_error (snd (Concurrent.stepAt j g hs)) i = nth_error hs i.
Proof.
  revert i j. induction hs as [|h0 rest IH]; intros i j Hne.
  - destruct j; reflexivity.
  - destruct j as [|j']; cbn [Concurrent.stepAt].
    + destruct (Concurrent.step g h0) as [g' h']. cbn [snd].
      destruct i as [|i']; [congruence | reflexivity].
    + specialize (IH (Nat.pred i) j').
      destruct (Concurrent.stepAt j' g rest) as [g' rest']. cbn [snd] in *.
      destruct i as [|i']; [reflexivity|]. simpl. apply IH. simpl. congruence.
Qed.

Lemma movesLeft_zero (h : Concurrent.Handler) :
  movesLeft h = 0%nat -> exists r, h = Concurrent.Responded r.
Proof.
  destruct h as [p|p|p|r]; simpl; try discriminate.
  - destruct (missingRequired p); [discriminate|].
    destruct (String.eqb (ID p) ""); discriminate.
  - intros _. now exists r.
Qed.

(** X15. A handler has answered as soon as the scheduler has let it move
    as often as it has moves left, at most three times, whatever the other
    handlers do in between: nothing another request does can keep a
    request from being answered. *)
Theorem handler_answers_after_its_moves :
  forall (schedule : list nat) (g : Globals) (hs : list Concurrent.Handler)
         (i : nat) (h : Concurrent.Handler),
    nth_error hs i = Some h ->
    (movesLeft h <= count_occ Nat.eq_dec schedule i)%nat ->
    (movesLeft h <= 3)%nat
    /\ exists r,
         nth_error (snd (Concurrent.run schedule g hs)) i
         = Some (Concurrent.Responded r).
Proof.
  intros schedule g hs i h Hn Hc. split.
  { destruct h as [p|p|p|r]; simpl; try lia.
    destruct (missingRequired p); [lia|]. destruct (String.eqb (ID p) ""); lia. }
  revert g hs h Hn Hc. induction schedule as [|j later IH]; intros g hs h Hn Hc.
  - simpl in Hc. destruct (movesLeft_zero h) as [r ->]; [lia|].
    exists r. exact Hn.
  - cbn [Concurrent.run]. cbn [count_occ] in Hc.
    destruct (Nat.eq_dec j i) as [->|Hne].
    + pose proof (stepAt_nth_same i g hs h Hn) as Hs.
      destruct (Concurrent.stepAt i g hs) as [g' hs']. cbn [snd] in Hs.
      apply (IH g' hs' _ Hs). rewrite step_movesLeft. lia.
    + pose proof (stepAt_nth_other i j g hs Hne) as Hs.
      destruct (Concurrent.stepAt j g hs) as [g' hs']. cbn [snd] in Hs.
      apply (IH g' hs' h); [congruence | exact Hc].
Qed.

Lemma handler_answers_after_its_moves_witness :
  (movesLeft (Concurrent.Decoded (draft "B" 2)) <= 3)%nat
  /\ exists r,
       nth_error (snd (Concurrent.run racingSchedule initialGlobals twoRequests)) 1
       = Some (Concurrent.Responded r).
Proof.
  apply (handler_answers_after_its_moves racingSchedule initialGlobals twoRequests
           1 (Concurrent.Decoded (draft "B" 2))).
  - reflexivity.
  - simpl. lia.
Defined.
